(** * go-pulsar: producer and consumer sessions

    A shallow embedding of [producer.go] and [consumer.go].  The two files
    build protocol commands and hand them to a connection; the connection,
    the generated protobuf package [pb] and the package [command] are other
    packages, so they enter the development as interfaces.

    - machine integers are [Z] with the wrap-around written out;
    - a pointer receiver ([p *Producer], [c *Consumer]) is the component
      [this] of the state, the shared client behind it is the component
      [env];
    - every call that leaves the session layer (send, receive, lookup, log)
      is recorded, with its result, in the trace an operation returns. *)

From Stdlib Require Import ZArith List String Bool Lia Sorted.
Import ListNotations.
Open Scope string_scope.
Open Scope list_scope.
Open Scope Z_scope.

(** ** Machine integers *)

(** Conversion to [uint64], and the result of every [uint64] operation. *)
Definition uint64 (z : Z) : Z := z mod 2 ^ 64.

(** Conversion to [int32]: the low 32 bits, read as two's complement. *)
Definition int32 (z : Z) : Z := (z + 2 ^ 31) mod 2 ^ 32 - 2 ^ 31.

Definition is_uint64 (z : Z) : Prop := 0 <= z < 2 ^ 64.

(** ** Types of the packages [pb] and [command] *)

(** Modelled from the spec: the declarations of the types below are in the
    packages [pb] and [command], which the two source files import.  Nothing
    in the two files looks inside these types, so they stay abstract;
    [KeyValues_Convert] is [KeyValues.Convert] and [command_NewMessage] is
    [command.NewMessage]; a pointer that may be [nil] is an [option]. *)
Class Types : Type := {
  CompressionType : Type;
  MessageIdData : Type;
  CommandAck_ValidationError : Type;
  CommandSendReceipt : Type;
  CommandMessage : Type;
  pb_KeyValue : Type;
  KeyValues : Type;
  KeyValues_Convert : KeyValues -> list pb_KeyValue;
  BatchEntry : Type;
  Message : Type;
  command_NewMessage : option CommandMessage -> string -> option Message
}.

(** Modelled from the spec: the command kinds of the table of commands
    (section 6); [BaseCommand_OTHER] stands for every kind of the protocol
    that the table does not list. *)
Inductive BaseCommand_Type : Type :=
| BaseCommand_PRODUCER
| BaseCommand_PRODUCER_SUCCESS
| BaseCommand_SEND
| BaseCommand_SEND_RECEIPT
| BaseCommand_CLOSE_PRODUCER
| BaseCommand_SUBSCRIBE
| BaseCommand_FLOW
| BaseCommand_MESSAGE
| BaseCommand_ACK
| BaseCommand_CLOSE_CONSUMER
| BaseCommand_OTHER (tag : Z).

(** Modelled from the spec: the subscription modes; the source names only
    [CommandSubscribe_Shared]. *)
Inductive CommandSubscribe_SubType : Type :=
| CommandSubscribe_Exclusive
| CommandSubscribe_Shared
| CommandSubscribe_Failover.

(** Modelled from the spec: individual and cumulative acknowledgment. *)
Inductive CommandAck_AckType : Type :=
| CommandAck_Individual
| CommandAck_Cumulative.

(** The records hold the fields that the source sets.  A field that some
    call leaves [nil] is an [option]. *)

Module CommandProducer.
Record t : Type := {
  Topic : string;
  ProducerId : Z;
  RequestId : Z
}.
End CommandProducer.

Module CommandProducerSuccess.
Record t : Type := { ProducerName : string }.
End CommandProducerSuccess.

Module CommandSend.
Record t : Type := {
  ProducerId : Z;
  SequenceId : Z;
  NumMessages : Z
}.
End CommandSend.

Module CommandCloseProducer.
Record t : Type := {
  ProducerId : Z;
  RequestId : Z
}.
End CommandCloseProducer.

Module CommandSubscribe.
Record t : Type := {
  Topic : string;
  Subscription : string;
  SubType : CommandSubscribe_SubType;
  ConsumerId : Z;
  RequestId : Z
}.
End CommandSubscribe.

Module CommandFlow.
Record t : Type := {
  ConsumerId : Z;
  MessagePermits : Z
}.
End CommandFlow.

Module CommandAck.
Record t `{Types} : Type := {
  ConsumerId : Z;
  AckType : CommandAck_AckType;
  MessageId : option MessageIdData;
  ValidationError : option CommandAck_ValidationError
}.
End CommandAck.

Module CommandCloseConsumer.
Record t : Type := {
  ConsumerId : Z;
  RequestId : Z
}.
End CommandCloseConsumer.

Module MessageMetadata.
Record t `{Types} : Type := {
  ProducerName : string;
  SequenceId : Z;
  PublishTime : Z;
  Properties : list pb_KeyValue;
  Compression : option CompressionType;
  NumMessagesInBatch : option Z
}.
End MessageMetadata.

(** The reply envelope: its kind and the optional sub-messages that the
    getters [GetProducerSuccess], [GetSendReceipt] and [GetMessage] read.
    The kind and the populated sub-message are independent fields. *)
Module BaseCommand.
Record t `{Types} : Type := {
  Type_ : BaseCommand_Type;
  ProducerSuccess : option CommandProducerSuccess.t;
  SendReceipt : option CommandSendReceipt;
  Message : option CommandMessage
}.
End BaseCommand.

(** The commands that the two files put in [Request.Message]. *)
Inductive Command `{Types} : Type :=
| Producer_ (c : CommandProducer.t)
| Send_ (c : CommandSend.t)
| CloseProducer_ (c : CommandCloseProducer.t)
| Subscribe_ (c : CommandSubscribe.t)
| Flow_ (c : CommandFlow.t)
| Ack_ (c : CommandAck.t)
| CloseConsumer_ (c : CommandCloseConsumer.t).

(** Modelled from the spec: [Request], a command with optional metadata, a
    payload and a batch; a field a composite literal leaves out has its zero
    value ([nil], the empty string, the empty batch). *)
Module Request.
Record t `{Types} : Type := {
  Message : Command;
  Meta : option MessageMetadata.t;
  Payload : string;
  BatchMessage : list BatchEntry
}.
End Request.

(** Modelled from the spec: [Response], the decoded reply and its payload. *)
Module Response.
Record t `{Types} : Type := {
  BaseCommand : BaseCommand.t;
  Payload : string
}.
End Response.

(** Nil-safe getter of the generated code. *)
Definition GetProducerName (success : option CommandProducerSuccess.t) : string :=
  match success with
  | Some s => CommandProducerSuccess.ProducerName s
  | None => ""
  end.

(** ** Errors *)

(** An [error] of the package [errors]: [errors_New] is any error made
    elsewhere, [errors_Wrap] keeps the cause under a message, and
    [errors_Errorf] keeps the format and the command kind printed by it. *)
Inductive error : Type :=
| errors_New (msg : string)
| errors_Wrap (cause : error) (msg : string)
| errors_Errorf (format : string) (v : BaseCommand_Type).

Fixpoint errors_Cause (e : error) : error :=
  match e with
  | errors_Wrap cause _ => errors_Cause cause
  | _ => e
  end.

(** The pair [(res, err)] a receive returns: the callers read [res] only
    when [err] is [nil]. *)
Inductive result (A : Type) : Type :=
| Ok (a : A)
| Err (e : error).
Arguments Ok {A} a.
Arguments Err {A} e.

(** ** Calls that leave the session layer *)

Inductive Level : Type := Debug | Error.

Inductive Event `{Types} : Type :=
| CallLookup (topic : string) (requestId : Z) (authoritative : bool) (err : option error)
| CallSend (request : Request.t) (err : option error)
| CallReceive (res : result Response.t)
| Logged (level : Level) (msg : string).

(** [time.Time], as far as [Unix] reads it. *)
Record Time : Type := {
  unixSec : Z;
  nsec : Z
}.

Definition Time_Unix (t : Time) : Z := unixSec t.

(** The client behind a session.  [Env] is everything outside the session:
    connection, broker and clock.  [conn_Send], [conn_Receive] and
    [SetLookupTopicConnection] are what a [Producer] reaches through
    [*PulsarClient]; [client_LookupTopic], [client_Send], [client_Receive]
    and [client_Connect] are the methods of the [*Client] of a [Consumer]. *)
Class Client `{Types} : Type := {
  Env : Type;
  SetLookupTopicConnection : string -> Z -> bool -> Env -> option error * Env;
  conn_Send : Request.t -> Env -> option error * Env;
  conn_Receive : Env -> result Response.t * Env;
  client_Connect : Env -> option error * Env;
  client_LookupTopic : string -> Z -> bool -> Env -> option error * Env;
  client_Send : Request.t -> Env -> option error * Env;
  client_Receive : Env -> result Response.t * Env;
  time_Now : Env -> Time * Env
}.

(** ** The two structs *)

Record Producer : Type := {
  SequenceID : Z;
  Name : string;
  Topic : string;
  ID : Z
}.

(** [Consumer] has the single field [client *Client], which is [env]. *)
Record Consumer : Type := { }.

Definition set_SequenceID (v : Z) (p : Producer) : Producer :=
  {| SequenceID := v; Name := Name p; Topic := Topic p; ID := ID p |}.

Definition set_Name (v : string) (p : Producer) : Producer :=
  {| SequenceID := SequenceID p; Name := v; Topic := Topic p; ID := ID p |}.

Section Session.
Context {T : Types} {C : Client}.

(** ** A state and trace monad *)

Record World (Obj : Type) : Type := {
  this : Obj;
  env : Env
}.
Arguments this {Obj} w.
Arguments env {Obj} w.

Definition M (Obj A : Type) : Type := World Obj -> A * World Obj * list Event.

Definition ret {Obj A} (a : A) : M Obj A := fun w => (a, w, []).

Definition bind {Obj A B} (m : M Obj A) (f : A -> M Obj B) : M Obj B :=
  fun w =>
    let '(a, w1, t1) := m w in
    let '(b, w2, t2) := f a w1 in
    (b, w2, t1 ++ t2).

Notation "x <- m ;; k" := (bind m (fun x => k))
  (at level 61, m at next level, right associativity).
Notation "m ;;; k" := (bind m (fun _ => k))
  (at level 61, right associativity).

Definition value {Obj A} (r : A * World Obj * list Event) : A := fst (fst r).
Definition world {Obj A} (r : A * World Obj * list Event) : World Obj := snd (fst r).
Definition trace {Obj A} (r : A * World Obj * list Event) : list Event := snd r.

(** An operation of the client, recorded in the trace. *)
Definition call {Obj A} (op : Env -> A * Env) (ev : A -> Event) : M Obj A :=
  fun w =>
    let '(a, e) := op (env w) in
    (a, {| this := this w; env := e |}, [ev a]).

Definition silent {Obj A} (op : Env -> A * Env) : M Obj A :=
  fun w =>
    let '(a, e) := op (env w) in
    (a, {| this := this w; env := e |}, []).

Definition get {Obj} : M Obj Obj := fun w => (this w, w, []).

Definition modify {Obj} (f : Obj -> Obj) : M Obj unit :=
  fun w => (tt, {| this := f (this w); env := env w |}, []).

(** The logger: the trace keeps the level and the message of an entry, not
    its fields or further arguments. *)
Definition log_Debug {Obj} (msg : string) : M Obj unit :=
  fun w => (tt, w, [Logged Debug msg]).

Definition log_Error {Obj} (msg : string) : M Obj unit :=
  fun w => (tt, w, [Logged Error msg]).

(** [atomic.AddUint64(&p.SequenceID, delta)]: one indivisible step that
    stores the sum and returns it. *)
Definition atomic_AddUint64_SequenceID (delta : Z) : M Producer Z :=
  fun w =>
    let new := uint64 (SequenceID (this w) + delta) in
    (new, {| this := set_SequenceID new (this w); env := env w |}, []).

(** ** producer.go *)

Definition CreateProducer (requestId : Z) : M Producer (option error) :=
  p <- get ;;
  err <- call (SetLookupTopicConnection (Topic p) requestId false)
              (CallLookup (Topic p) requestId false) ;;
  match err with
  | Some e => ret (Some (errors_Wrap e "failed to set lookup topic connection"))
  | None =>
      let producer := {| CommandProducer.Topic := Topic p;
                         CommandProducer.ProducerId := ID p;
                         CommandProducer.RequestId := requestId |} in
      let request := {| Request.Message := Producer_ producer;
                        Request.Meta := None;
                        Request.Payload := "";
                        Request.BatchMessage := [] |} in
      err <- call (conn_Send request) (CallSend request) ;;
      match err with
      | Some e => ret (Some (errors_Wrap e "failed to send producer command"))
      | None => log_Debug "sent producer" ;;; ret None
      end
  end.

Definition ReceiveProducerSuccess
  : M Producer (option CommandProducerSuccess.t * option error) :=
  r <- call conn_Receive CallReceive ;;
  match r with
  | Err e => ret (None, Some (errors_Wrap e "failed to receive producerSuccess command"))
  | Ok res =>
      let base := Response.BaseCommand res in
      match BaseCommand.Type_ base with
      | BaseCommand_PRODUCER_SUCCESS =>
          let success := BaseCommand.ProducerSuccess base in
          log_Debug "created producer" ;;;
          ret (success, None)
      | t => ret (None, Some (errors_Errorf "unknown command type: %v" t))
      end
  end.

Definition Open (requestID : Z) : M Producer (option error) :=
  err <- CreateProducer requestID ;;
  match err with
  | Some e => log_Error "Failed to create producer" ;;; ret (Some e)
  | None =>
      log_Debug "Created producer" ;;;
      r <- ReceiveProducerSuccess ;;
      match snd r with
      | Some e => log_Error "Failed to receive producer" ;;; ret (Some e)
      | None =>
          log_Debug "Recieved producer" ;;;
          modify (set_Name (GetProducerName (fst r))) ;;;
          ret None
      end
  end.

Definition defaultNumMessages : Z := 1.

Definition SendSend (payload : string) (keyValues : KeyValues)
  : M Producer (option error) :=
  new <- atomic_AddUint64_SequenceID 1 ;;
  let sequenceID := uint64 (new - 1) in
  p <- get ;;
  let send := {| CommandSend.ProducerId := ID p;
                 CommandSend.SequenceId := sequenceID;
                 CommandSend.NumMessages := int32 defaultNumMessages |} in
  t <- silent time_Now ;;
  let now := Time_Unix t in
  let meta := {| MessageMetadata.ProducerName := Name p;
                 MessageMetadata.SequenceId := sequenceID;
                 MessageMetadata.PublishTime := uint64 now;
                 MessageMetadata.Properties := KeyValues_Convert keyValues;
                 MessageMetadata.Compression := None;
                 MessageMetadata.NumMessagesInBatch := None |} in
  let request := {| Request.Message := Send_ send;
                    Request.Meta := Some meta;
                    Request.Payload := payload;
                    Request.BatchMessage := [] |} in
  err <- call (conn_Send request) (CallSend request) ;;
  match err with
  | Some e => ret (Some (errors_Wrap e "failed to send 'send' command"))
  | None => log_Debug "sent 'send'" ;;; ret None
  end.

Definition SendBatchSend (batchMessage : list BatchEntry)
  (compression : option CompressionType) : M Producer (option error) :=
  new <- atomic_AddUint64_SequenceID 1 ;;
  let sequenceID := uint64 (new - 1) in
  let numMessages := int32 (Z.of_nat (List.length batchMessage)) in
  p <- get ;;
  let send := {| CommandSend.ProducerId := ID p;
                 CommandSend.SequenceId := sequenceID;
                 CommandSend.NumMessages := numMessages |} in
  t <- silent time_Now ;;
  let now := Time_Unix t in
  let meta := {| MessageMetadata.ProducerName := Name p;
                 MessageMetadata.SequenceId := sequenceID;
                 MessageMetadata.PublishTime := uint64 now;
                 MessageMetadata.Properties := [];
                 MessageMetadata.Compression := compression;
                 MessageMetadata.NumMessagesInBatch := Some numMessages |} in
  let request := {| Request.Message := Send_ send;
                    Request.Meta := Some meta;
                    Request.Payload := "";
                    Request.BatchMessage := batchMessage |} in
  err <- call (conn_Send request) (CallSend request) ;;
  match err with
  | Some e => ret (Some (errors_Wrap e "failed to send batch 'send' command"))
  | None => log_Debug "sent batch 'send'" ;;; ret None
  end.

Definition ReceiveSendReceipt
  : M Producer (option CommandSendReceipt * option error) :=
  r <- call conn_Receive CallReceive ;;
  match r with
  | Err e => ret (None, Some (errors_Wrap e "failed to receive sendReceipt command"))
  | Ok res =>
      let receipt := BaseCommand.SendReceipt (Response.BaseCommand res) in
      log_Debug "receive sendReceipt" ;;;
      ret (receipt, None)
  end.

Definition CloseProducer (requestId : Z) : M Producer (option error) :=
  p <- get ;;
  let close := {| CommandCloseProducer.ProducerId := ID p;
                  CommandCloseProducer.RequestId := requestId |} in
  let request := {| Request.Message := CloseProducer_ close;
                    Request.Meta := None;
                    Request.Payload := "";
                    Request.BatchMessage := [] |} in
  err <- call (conn_Send request) (CallSend request) ;;
  match err with
  | Some e => ret (Some (errors_Wrap e "failed to send closeProducer command"))
  | None => log_Debug "sent closeProducer" ;;; ret None
  end.

Definition NewProducer (producerID : Z) (topic : string) : Producer :=
  {| SequenceID := 0; Name := ""; Topic := topic; ID := producerID |}.

(** ** consumer.go *)

Definition Subscribe (topic subscription subType : string)
  (consumerId requestId : Z) : M Consumer (option error) :=
  err <- call (client_LookupTopic topic requestId false)
              (CallLookup topic requestId false) ;;
  match err with
  | Some e => ret (Some (errors_Wrap e "failed to request lookup command"))
  | None =>
      let sub := {| CommandSubscribe.Topic := topic;
                    CommandSubscribe.Subscription := subscription;
                    CommandSubscribe.SubType := CommandSubscribe_Shared;
                    CommandSubscribe.ConsumerId := consumerId;
                    CommandSubscribe.RequestId := requestId |} in
      let request := {| Request.Message := Subscribe_ sub;
                        Request.Meta := None;
                        Request.Payload := "";
                        Request.BatchMessage := [] |} in
      err <- call (client_Send request) (CallSend request) ;;
      match err with
      | Some e => ret (Some (errors_Wrap e "failed to send subscribe command"))
      | None => log_Debug "sent subscribe" ;;; ret None
      end
  end.

Definition Flow (consumerId messagePermits : Z) : M Consumer (option error) :=
  let flow := {| CommandFlow.ConsumerId := consumerId;
                 CommandFlow.MessagePermits := messagePermits |} in
  let request := {| Request.Message := Flow_ flow;
                    Request.Meta := None;
                    Request.Payload := "";
                    Request.BatchMessage := [] |} in
  err <- call (client_Send request) (CallSend request) ;;
  match err with
  | Some e => ret (Some (errors_Wrap e "failed to request flow command"))
  | None => log_Debug "sent flow" ;;; ret None
  end.

Definition ReceiveMessage : M Consumer (option Message * option error) :=
  r <- call client_Receive CallReceive ;;
  match r with
  | Err e => ret (None, Some (errors_Wrap e "failed to receive message command"))
  | Ok res =>
      let cmd := BaseCommand.Message (Response.BaseCommand res) in
      let msg := command_NewMessage cmd (Response.Payload res) in
      log_Debug "receive message" ;;;
      ret (msg, None)
  end.

Definition SendAck (consumerId : Z) (ackType : CommandAck_AckType)
  (msgIdData : option MessageIdData)
  (validationError : option CommandAck_ValidationError)
  : M Consumer (option error) :=
  let ack := {| CommandAck.ConsumerId := consumerId;
                CommandAck.AckType := ackType;
                CommandAck.MessageId := msgIdData;
                CommandAck.ValidationError := validationError |} in
  let request := {| Request.Message := Ack_ ack;
                    Request.Meta := None;
                    Request.Payload := "";
                    Request.BatchMessage := [] |} in
  err <- call (client_Send request) (CallSend request) ;;
  match err with
  | Some e => ret (Some (errors_Wrap e "failed to send ack command"))
  | None => log_Debug "sent ack" ;;; ret None
  end.

Definition CloseConsumer (consumerId requestId : Z) : M Consumer (option error) :=
  let close := {| CommandCloseConsumer.ConsumerId := consumerId;
                  CommandCloseConsumer.RequestId := requestId |} in
  let request := {| Request.Message := CloseConsumer_ close;
                    Request.Meta := None;
                    Request.Payload := "";
                    Request.BatchMessage := [] |} in
  err <- call (client_Send request) (CallSend request) ;;
  match err with
  | Some e => ret (Some (errors_Wrap e "failed to send closeConsumer command"))
  | None => log_Debug "sent closeConsumer" ;;; ret None
  end.

(** [client.Connect()] runs first and its error is dropped. *)
Definition NewConsumer (client : Env) : World Consumer :=
  {| this := Build_Consumer; env := snd (client_Connect client) |}.

(** ** Reading a trace *)

(** The requests handed to the connection, oldest first. *)
Definition sent (tr : list Event) : list Request.t :=
  flat_map (fun ev => match ev with CallSend r _ => [r] | _ => [] end) tr.

(** The results of the receives performed, oldest first. *)
Definition received (tr : list Event) : list (result Response.t) :=
  flat_map (fun ev => match ev with CallReceive r => [r] | _ => [] end) tr.

(** The sequence ID a request carries in its send command. *)
Definition sequence_id (r : Request.t) : list Z :=
  match Request.Message r with
  | Send_ c => [CommandSend.SequenceId c]
  | _ => []
  end.

Definition assigned_ids (tr : list Event) : list Z :=
  flat_map sequence_id (sent tr).

(** The error a send or a receive of the trace came back with. *)
Definition transport_errors (tr : list Event) : list error :=
  flat_map (fun ev =>
              match ev with
              | CallSend _ (Some e) => [e]
              | CallReceive (Err e) => [e]
              | _ => []
              end) tr.

(** An operation propagates a transport error: whenever one of its sends or
    receives comes back with [e], the operation returns [e] wrapped under
    [msg], whose cause is the cause of [e], and that failed call is the only
    send or receive the operation makes. *)
Definition propagates {Obj A : Type} (op : M Obj A)
  (err_of : A -> option error) (msg : string) : Prop :=
  forall (w : World Obj) (e : error),
    In e (transport_errors (trace (op w))) ->
    exists err,
      err_of (value (op w)) = Some err
      /\ err = errors_Wrap e msg
      /\ errors_Cause err = errors_Cause e
      /\ (List.length (sent (trace (op w)))
          + List.length (received (trace (op w))) = 1)%nat.

(** ** The requests the operations build *)

Definition SendSend_request (p : Producer) (t : Time) (payload : string)
  (keyValues : KeyValues) : Request.t :=
  {| Request.Message :=
       Send_ {| CommandSend.ProducerId := ID p;
                CommandSend.SequenceId := uint64 (SequenceID p);
                CommandSend.NumMessages := 1 |};
     Request.Meta :=
       Some {| MessageMetadata.ProducerName := Name p;
               MessageMetadata.SequenceId := uint64 (SequenceID p);
               MessageMetadata.PublishTime := uint64 (unixSec t);
               MessageMetadata.Properties := KeyValues_Convert keyValues;
               MessageMetadata.Compression := None;
               MessageMetadata.NumMessagesInBatch := None |};
     Request.Payload := payload;
     Request.BatchMessage := [] |}.

Definition SendBatchSend_request (p : Producer) (t : Time)
  (batchMessage : list BatchEntry) (compression : option CompressionType)
  : Request.t :=
  let numMessages := int32 (Z.of_nat (List.length batchMessage)) in
  {| Request.Message :=
       Send_ {| CommandSend.ProducerId := ID p;
                CommandSend.SequenceId := uint64 (SequenceID p);
                CommandSend.NumMessages := numMessages |};
     Request.Meta :=
       Some {| MessageMetadata.ProducerName := Name p;
               MessageMetadata.SequenceId := uint64 (SequenceID p);
               MessageMetadata.PublishTime := uint64 (unixSec t);
               MessageMetadata.Properties := [];
               MessageMetadata.Compression := compression;
               MessageMetadata.NumMessagesInBatch := Some numMessages |};
     Request.Payload := "";
     Request.BatchMessage := batchMessage |}.

(** A request of a command alone. *)
Definition bare (c : Command) : Request.t :=
  {| Request.Message := c;
     Request.Meta := None;
     Request.Payload := "";
     Request.BatchMessage := [] |}.

(** ** More readings of a trace *)

(** The lookups performed, oldest first. *)
Definition lookups (tr : list Event) : list (string * Z * bool) :=
  flat_map (fun ev =>
              match ev with
              | CallLookup topic requestId authoritative _ =>
                  [(topic, requestId, authoritative)]
              | _ => []
              end) tr.

(** The errors of all the calls that failed, lookups included. *)
Definition failures (tr : list Event) : list error :=
  flat_map (fun ev =>
              match ev with
              | CallLookup _ _ _ (Some e) => [e]
              | CallSend _ (Some e) => [e]
              | CallReceive (Err e) => [e]
              | _ => []
              end) tr.

(** The send commands and the metadata of the requests sent. *)
Definition send_commands (tr : list Event) : list CommandSend.t :=
  flat_map (fun r => match Request.Message r with Send_ c => [c] | _ => [] end)
           (sent tr).

Definition metas (tr : list Event) : list MessageMetadata.t :=
  flat_map (fun r => match Request.Meta r with Some m => [m] | None => [] end)
           (sent tr).

(** An operation returns [nil] exactly when every call it made succeeded. *)
Definition nil_iff_calls_succeed {Obj A : Type} (op : M Obj A)
  (err_of : A -> option error) : Prop :=
  forall w : World Obj,
    err_of (value (op w)) = None <-> failures (trace (op w)) = [].

(** ** Runs of send calls on one producer *)

Inductive SendCall : Type :=
| BySendSend (payload : string) (keyValues : KeyValues)
| BySendBatchSend (batchMessage : list BatchEntry)
                  (compression : option CompressionType).

Definition perform (c : SendCall) : M Producer (option error) :=
  match c with
  | BySendSend payload keyValues => SendSend payload keyValues
  | BySendBatchSend batchMessage compression =>
      SendBatchSend batchMessage compression
  end.

Fixpoint perform_all (cs : list SendCall) : M Producer (list (option error)) :=
  match cs with
  | [] => ret []
  | c :: rest =>
      err <- perform c ;;
      errs <- perform_all rest ;;
      ret (err :: errs)
  end.

(** The producer [NewProducer] returns, on a client in state [client]. *)
Definition fresh (producerID : Z) (topic : string) (client : Env)
  : World Producer :=
  {| this := NewProducer producerID topic; env := client |}.

End Session.

Arguments this {_ _ Obj} w.
Arguments env {_ _ Obj} w.

(** ** A scripted client *)

(** Simple carriers for the types of [pb] and [command]. *)
Definition plain : Types :=
  {| CompressionType := nat;
     MessageIdData := Z * Z;
     CommandAck_ValidationError := nat;
     CommandSendReceipt := Z;
     CommandMessage := Z;
     pb_KeyValue := string * string;
     KeyValues := list (string * string);
     KeyValues_Convert := fun kvs => kvs;
     BatchEntry := string;
     Message := option Z * string;
     command_NewMessage := fun cmd payload => Some (cmd, payload) |}.

(** A client that answers from a script: every send and every lookup comes
    back with a fixed result, a receive takes the next reply of [inbox], and
    the clock stands at [clock]. *)
Record Script : Type := {
  send_result : option error;
  lookup_result : option error;
  inbox : list (result (@Response.t plain));
  clock : Time
}.

Definition take_reply (s : Script) : result (@Response.t plain) * Script :=
  match inbox s with
  | r :: rest =>
      (r, {| send_result := send_result s; lookup_result := lookup_result s;
             inbox := rest; clock := clock s |})
  | [] => (Err (errors_New "EOF"), s)
  end.

Definition scripted : @Client plain :=
  {| Env := Script;
     SetLookupTopicConnection := fun _ _ _ s => (lookup_result s, s);
     conn_Send := fun _ s => (send_result s, s);
     conn_Receive := take_reply;
     client_Connect := fun s => (None, s);
     client_LookupTopic := fun _ _ _ s => (lookup_result s, s);
     client_Send := fun _ s => (send_result s, s);
     client_Receive := take_reply;
     time_Now := fun s => (clock s, s) |}.

Definition quiet (replies : list (result (@Response.t plain))) : Script :=
  {| send_result := None; lookup_result := None; inbox := replies;
     clock := {| unixSec := 1500000000; nsec := 999999999 |} |}.

Definition broken (e : error) : Script :=
  {| send_result := Some e; lookup_result := None; inbox := [Err e];
     clock := {| unixSec := 1500000000; nsec := 0 |} |}.

(** Sample inputs. *)
Definition my_topic : string := "persistent://sample/standalone/ns1/my-topic".

Definition new_producer (client : Script) : @World plain scripted Producer :=
  @fresh plain scripted 7 my_topic client.

Definition new_consumer (client : Script) : @World plain scripted Consumer :=
  @NewConsumer plain scripted client.

Definition three_calls : list (@SendCall plain) :=
  [ @BySendSend plain "a" [];
    @BySendBatchSend plain ["b"; "c"] None;
    @BySendSend plain "d" [("k", "v")] ].

Definition five_payloads : list string := ["a"; "b"; "c"; "d"; "e"].

Definition reply_of (kind : BaseCommand_Type)
  (success : option CommandProducerSuccess.t) (receipt message : option Z)
  (payload : string) : @Response.t plain :=
  @Response.Build_t plain
    (@BaseCommand.Build_t plain kind success receipt message) payload.

Definition producer_success_p1 : @Response.t plain :=
  reply_of BaseCommand_PRODUCER_SUCCESS
           (Some {| CommandProducerSuccess.ProducerName := "p-1" |})
           None None "".

Definition stray_message : @Response.t plain :=
  reply_of BaseCommand_MESSAGE None None (Some 5) "body".

Definition stray_receipt : @Response.t plain :=
  reply_of BaseCommand_SEND_RECEIPT None (Some 42) None "".

Definition broken_pipe : error := errors_New "broken pipe".

Definition one_send : @SendCall plain := @BySendSend plain "a" [].

Definition before_1970 : Script :=
  {| send_result := None; lookup_result := None; inbox := [];
     clock := {| unixSec := -1; nsec := 500000000 |} |}.

(** A producer two sends away from the end of the counter's range. *)
Definition late_producer (client : Script) : @World plain scripted Producer :=
  @Build_World plain scripted Producer
    {| SequenceID := 18446744073709551614; Name := "p-1";
       Topic := my_topic; ID := 7 |}
    client.

(** * Properties *)

Section Properties.
Context {T : Types} {C : Client}.

(** Unfold the monad, split on what the client answers. *)

Ltac run :=
  unfold bind, call, silent, get, modify, ret, log_Debug, log_Error,
    atomic_AddUint64_SequenceID, value, world, trace; simpl.

Ltac answer op :=
  match goal with
  | |- context [op ?a ?b] => destruct (op a b) as [? ?] eqn:?; simpl
  | |- context [op ?a] => destruct (op a) as [? ?] eqn:?; simpl
  end.

Ltac outcome :=
  match goal with
  | |- context [match ?e with Some _ => _ | None => _ end] => destruct e; simpl
  | |- context [match ?e with Ok _ => _ | Err _ => _ end] => destruct e; simpl
  end.

Ltac nil_iff :=
  split; intros Hnil; try discriminate Hnil; reflexivity.

Ltac one_call op :=
  intros w e; run; answer op; outcome; simpl; intros Hin;
  [destruct Hin as [<- | []]; eexists; repeat split | destruct Hin].

(** ** The monad *)

Lemma value_bind {Obj A B} (m : M Obj A) (f : A -> M Obj B) (w : World Obj) :
  value (bind m f w) = value (f (value (m w)) (world (m w))).
Proof.
  unfold bind, value, world.
  destruct (m w) as [[a w1] t1]; simpl.
  destruct (f a w1) as [[b w2] t2]; reflexivity.
Qed.

Lemma world_bind {Obj A B} (m : M Obj A) (f : A -> M Obj B) (w : World Obj) :
  world (bind m f w) = world (f (value (m w)) (world (m w))).
Proof.
  unfold bind, value, world.
  destruct (m w) as [[a w1] t1]; simpl.
  destruct (f a w1) as [[b w2] t2]; reflexivity.
Qed.

Lemma trace_bind {Obj A B} (m : M Obj A) (f : A -> M Obj B) (w : World Obj) :
  trace (bind m f w) = trace (m w) ++ trace (f (value (m w)) (world (m w))).
Proof.
  unfold bind, value, world, trace.
  destruct (m w) as [[a w1] t1]; simpl.
  destruct (f a w1) as [[b w2] t2]; reflexivity.
Qed.

Lemma sent_app (t1 t2 : list Event) : sent (t1 ++ t2) = sent t1 ++ sent t2.
Proof. apply flat_map_app. Qed.

Lemma received_app (t1 t2 : list Event) :
  received (t1 ++ t2) = received t1 ++ received t2.
Proof. apply flat_map_app. Qed.

Lemma assigned_ids_app (t1 t2 : list Event) :
  assigned_ids (t1 ++ t2) = assigned_ids t1 ++ assigned_ids t2.
Proof. unfold assigned_ids. rewrite sent_app. apply flat_map_app. Qed.

(** ** Machine integers *)

Lemma uint64_small (z : Z) : is_uint64 z -> uint64 z = z.
Proof. intros H. apply Z.mod_small. exact H. Qed.

Lemma uint64_range (z : Z) : is_uint64 (uint64 z).
Proof. apply Z.mod_pos_bound. apply Z.pow_pos_nonneg; lia. Qed.

(** The value [AddUint64(&x, 1) - 1] is the counter before the call. *)
Lemma drawn_is_previous (s : Z) : uint64 (uint64 (s + 1) - 1) = uint64 s.
Proof.
  unfold uint64. rewrite Zminus_mod_idemp_l. f_equal. lia.
Qed.

Lemma uint64_succ_l (s i : Z) : uint64 (uint64 (s + 1) + i) = uint64 (s + (i + 1)).
Proof.
  unfold uint64. rewrite Zplus_mod_idemp_l. f_equal. lia.
Qed.

Lemma int32_small (z : Z) : - 2 ^ 31 <= z < 2 ^ 31 -> int32 z = z.
Proof.
  intros H. unfold int32. rewrite Z.mod_small; lia.
Qed.

(** ** The request a send call hands to the connection *)

Lemma SendSend_run (payload : string) (keyValues : KeyValues) (w : World Producer) :
  let r := SendSend payload keyValues w in
  let req := SendSend_request (this w) (fst (time_Now (env w))) payload keyValues in
  sent (trace r) = [req]
  /\ received (trace r) = []
  /\ this (world r) = set_SequenceID (uint64 (SequenceID (this w) + 1)) (this w).
Proof.
  unfold SendSend, SendSend_request. run.
  rewrite drawn_is_previous.
  answer time_Now. answer conn_Send. outcome; auto.
Qed.

Lemma SendBatchSend_run (batchMessage : list BatchEntry)
  (compression : option CompressionType) (w : World Producer) :
  let r := SendBatchSend batchMessage compression w in
  let req := SendBatchSend_request (this w) (fst (time_Now (env w)))
               batchMessage compression in
  sent (trace r) = [req]
  /\ received (trace r) = []
  /\ this (world r) = set_SequenceID (uint64 (SequenceID (this w) + 1)) (this w).
Proof.
  unfold SendBatchSend, SendBatchSend_request. run.
  rewrite drawn_is_previous.
  answer time_Now. answer conn_Send. outcome; auto.
Qed.

Lemma CloseProducer_run (requestId : Z) (w : World Producer) :
  let r := CloseProducer requestId w in
  sent (trace r) =
    [bare (CloseProducer_ {| CommandCloseProducer.ProducerId := ID (this w);
                             CommandCloseProducer.RequestId := requestId |})]
  /\ received (trace r) = []
  /\ this (world r) = this w.
Proof.
  unfold CloseProducer, bare. run.
  answer conn_Send. outcome; auto.
Qed.

Lemma CloseConsumer_run (consumerId requestId : Z) (w : World Consumer) :
  let r := CloseConsumer consumerId requestId w in
  sent (trace r) =
    [bare (CloseConsumer_ {| CommandCloseConsumer.ConsumerId := consumerId;
                             CommandCloseConsumer.RequestId := requestId |})]
  /\ received (trace r) = [].
Proof.
  unfold CloseConsumer, bare. run.
  answer client_Send. outcome; auto.
Qed.

(** ** Send *)

(** C5.  [SendSend] hands the connection one request, made of a send command,
    metadata and the payload.  The command carries the producer ID, the
    sequence ID drawn by this call (the counter's value before the call, and
    the counter moves on) and message count 1; the metadata carries the
    producer name, the same sequence ID, the clock's whole seconds as publish
    time, and the converted properties.  The call performs no receive. *)
Theorem SendSend_emits_one_unit (payload : string) (keyValues : KeyValues)
  (w : World Producer) :
  is_uint64 (SequenceID (this w)) ->
  let r := SendSend payload keyValues w in
  let p := this w in
  let now := fst (time_Now (env w)) in
  exists send meta,
    sent (trace r) = [{| Request.Message := Send_ send;
                         Request.Meta := Some meta;
                         Request.Payload := payload;
                         Request.BatchMessage := [] |}]
    /\ CommandSend.ProducerId send = ID p
    /\ CommandSend.SequenceId send = SequenceID p
    /\ CommandSend.NumMessages send = 1
    /\ MessageMetadata.ProducerName meta = Name p
    /\ MessageMetadata.SequenceId meta = SequenceID p
    /\ MessageMetadata.PublishTime meta = uint64 (Time_Unix now)
    /\ MessageMetadata.Properties meta = KeyValues_Convert keyValues
    /\ received (trace r) = []
    /\ SequenceID (this (world r)) = uint64 (SequenceID p + 1).
Proof.
  intros Hs r p now.
  destruct (SendSend_run payload keyValues w) as (Hsent & Hrecv & Hthis).
  fold r in Hsent, Hrecv, Hthis.
  unfold SendSend_request in Hsent. rewrite (uint64_small _ Hs) in Hsent.
  eexists. eexists. split; [exact Hsent|].
  rewrite Hthis. simpl. repeat split; auto.
Qed.



(** ** Frame *)

(** C9.  [SendSend] and [SendBatchSend] leave [Name], [Topic] and [ID] as
    they were and add one to [SequenceID], in [uint64] arithmetic;
    [CloseProducer] leaves the whole producer as it was. *)
Theorem send_calls_change_only_SequenceID (w : World Producer)
  (payload : string) (keyValues : KeyValues)
  (batchMessage : list BatchEntry) (compression : option CompressionType)
  (requestId : Z) :
  let p := this w in
  let p1 := this (world (SendSend payload keyValues w)) in
  let p2 := this (world (SendBatchSend batchMessage compression w)) in
  let p3 := this (world (CloseProducer requestId w)) in
  (Name p1 = Name p /\ Topic p1 = Topic p /\ ID p1 = ID p
   /\ SequenceID p1 = uint64 (SequenceID p + 1))
  /\ (Name p2 = Name p /\ Topic p2 = Topic p /\ ID p2 = ID p
      /\ SequenceID p2 = uint64 (SequenceID p + 1))
  /\ p3 = p.
Proof.
  intros p p1 p2 p3.
  destruct (SendSend_run payload keyValues w) as (_ & _ & H1).
  destruct (SendBatchSend_run batchMessage compression w) as (_ & _ & H2).
  destruct (CloseProducer_run requestId w) as (_ & _ & H3).
  unfold p1, p2, p3. rewrite H1, H2, H3. simpl. auto 10.
Qed.

(** ** Close *)

(** C6.  [CloseProducer] and [CloseConsumer] each perform one send, of the
    close command alone, and no receive. *)
Theorem close_is_one_send_no_receive (requestId consumerId : Z)
  (wp : World Producer) (wc : World Consumer) :
  let rp := CloseProducer requestId wp in
  let rc := CloseConsumer consumerId requestId wc in
  (sent (trace rp) =
     [bare (CloseProducer_ {| CommandCloseProducer.ProducerId := ID (this wp);
                              CommandCloseProducer.RequestId := requestId |})]
   /\ received (trace rp) = [])
  /\ (sent (trace rc) =
        [bare (CloseConsumer_ {| CommandCloseConsumer.ConsumerId := consumerId;
                                 CommandCloseConsumer.RequestId := requestId |})]
      /\ received (trace rc) = []).
Proof.
  intros rp rc.
  destruct (CloseProducer_run requestId wp) as (H1 & H2 & _).
  destruct (CloseConsumer_run consumerId requestId wc) as (H3 & H4).
  auto.
Qed.

(** ** Sequence IDs *)

Lemma perform_run (c : SendCall) (w : World Producer) :
  assigned_ids (trace (perform c w)) = [uint64 (SequenceID (this w))]
  /\ this (world (perform c w))
     = set_SequenceID (uint64 (SequenceID (this w) + 1)) (this w).
Proof.
  destruct c as [payload keyValues | batchMessage compression]; simpl.
  - destruct (SendSend_run payload keyValues w) as (Hsent & _ & Hthis).
    unfold assigned_ids. rewrite Hsent. split; [reflexivity | exact Hthis].
  - destruct (SendBatchSend_run batchMessage compression w) as (Hsent & _ & Hthis).
    unfold assigned_ids. rewrite Hsent. split; [reflexivity | exact Hthis].
Qed.

(** Call number [i] of a run draws the counter's first value plus [i],
    modulo [2 ^ 64]. *)
Lemma perform_all_ids (cs : list SendCall) (w : World Producer) :
  assigned_ids (trace (perform_all cs w))
  = map (fun i => uint64 (SequenceID (this w) + Z.of_nat i))
        (seq 0 (List.length cs)).
Proof.
  revert w. induction cs as [| c rest IH]; intros w.
  - reflexivity.
  - cbn [perform_all List.length seq map].
    rewrite trace_bind, assigned_ids_app.
    destruct (perform_run c w) as (Hid & Hthis).
    rewrite Hid, trace_bind, assigned_ids_app, IH, Hthis.
    cbn [ret trace snd assigned_ids sent flat_map set_SequenceID SequenceID app].
    rewrite app_nil_r, Z.add_0_r. f_equal.
    rewrite <- seq_shift, map_map.
    apply map_ext. intros i.
    rewrite uint64_succ_l. f_equal. lia.
Qed.

Lemma iota_NoDup (n : nat) : NoDup (map Z.of_nat (seq 0 n)).
Proof.
  apply NoDup_map_inv with (f := Z.to_nat).
  rewrite map_map. erewrite map_ext; [rewrite map_id; apply seq_NoDup|].
  intros i. apply Nat2Z.id.
Qed.

Lemma iota_increasing (start n : nat) :
  StronglySorted Z.lt (map Z.of_nat (seq start n)).
Proof.
  revert start. induction n as [| n IH]; intros start; simpl.
  - constructor.
  - constructor; [apply IH|].
    apply Forall_forall. intros z Hz.
    apply in_map_iff in Hz. destruct Hz as (i & <- & Hi).
    apply in_seq in Hi. lia.
Qed.

(** C1.  In a run of calls of [SendSend] and [SendBatchSend] on a producer
    made by [NewProducer], call number [i] draws sequence ID [i]: the IDs
    are [0, 1, ..., N - 1] in call order, one per call, without duplicates
    and strictly increasing, whatever the connection answers.  The bound on
    the length of the run is the range of the [uint64] counter. *)
Theorem sequence_ids_contiguous (cs : list SendCall) (producerID : Z)
  (topic : string) (client : Env) :
  Z.of_nat (List.length cs) <= 2 ^ 64 ->
  let ids := assigned_ids (trace (perform_all cs (fresh producerID topic client))) in
  ids = map Z.of_nat (seq 0 (List.length cs))
  /\ List.length ids = List.length cs
  /\ NoDup ids
  /\ StronglySorted Z.lt ids.
Proof.
  intros HN ids.
  assert (Hids : ids = map Z.of_nat (seq 0 (List.length cs))).
  { unfold ids. rewrite perform_all_ids.
    apply map_ext_in. intros i Hi. apply in_seq in Hi. simpl.
    apply uint64_small. unfold is_uint64. lia. }
  rewrite Hids. repeat split.
  - rewrite length_map, length_seq. reflexivity.
  - apply iota_NoDup.
  - apply iota_increasing.
Qed.

(** After [2 ^ 64] calls the counter is back at 0, and the next call draws
    the ID of the first one. *)
Lemma sequence_ids_repeat (c : SendCall) (n : nat) (producerID : Z)
  (topic : string) (client : Env) :
  Z.of_nat n = 2 ^ 64 ->
  ~ NoDup (assigned_ids
             (trace (perform_all (repeat c (S n)) (fresh producerID topic client)))).
Proof.
  intros Hn Hnd.
  rewrite perform_all_ids, repeat_length in Hnd.
  cbn [seq map fresh this NewProducer SequenceID] in Hnd.
  apply NoDup_cons_iff in Hnd. destruct Hnd as [Hnotin _].
  apply Hnotin. apply in_map_iff. exists n. split.
  - rewrite Hn. reflexivity.
  - apply in_seq. assert (0 < Z.of_nat n) by (rewrite Hn; reflexivity). lia.
Qed.

(** ** Replies *)

(** C3.  [Open] assigns [Name] exactly when its receive step yields a reply
    of kind producer success, and then returns no error; on a reply of any
    other kind [t] it returns the error made from [t] and leaves the producer
    as it was; when the receive fails, or is never reached, it returns an
    error and leaves the producer as it was.  [Open] receives at most
    once. *)
Theorem Open_sets_Name_iff_producer_success (requestID : Z) (w : World Producer) :
  let r := Open requestID w in
  let p := this w in
  match received (trace r) with
  | [] => value r <> None /\ this (world r) = p
  | [Err e] =>
      value r = Some (errors_Wrap e "failed to receive producerSuccess command")
      /\ this (world r) = p
  | [Ok res] =>
      let base := Response.BaseCommand res in
      match BaseCommand.Type_ base with
      | BaseCommand_PRODUCER_SUCCESS =>
          value r = None
          /\ this (world r)
             = set_Name (GetProducerName (BaseCommand.ProducerSuccess base)) p
      | t =>
          value r = Some (errors_Errorf "unknown command type: %v" t)
          /\ this (world r) = p
      end
  | _ => False
  end.
Proof.
  unfold Open, CreateProducer, ReceiveProducerSuccess. run.
  answer SetLookupTopicConnection. outcome.
  { split; [discriminate | reflexivity]. }
  answer conn_Send. outcome.
  { split; [discriminate | reflexivity]. }
  answer conn_Receive. outcome.
  - cbv zeta.
    destruct (BaseCommand.Type_ (Response.BaseCommand a)) eqn:Hkind;
      simpl; rewrite ?Hkind; auto.
  - auto.
Qed.

(** C8.  When the receive succeeds, [ReceiveSendReceipt] returns the send
    receipt field of the reply and no error, whatever the kind of the reply
    is; it performs that one receive and no send. *)
Theorem ReceiveSendReceipt_does_not_validate (w : World Producer)
  (res : Response.t) (client : Env) :
  conn_Receive (env w) = (Ok res, client) ->
  let r := ReceiveSendReceipt w in
  value r = (BaseCommand.SendReceipt (Response.BaseCommand res), None)
  /\ received (trace r) = [Ok res]
  /\ sent (trace r) = []
  /\ world r = {| this := this w; env := client |}.
Proof.
  intros Hrecv. unfold ReceiveSendReceipt. run.
  rewrite Hrecv. simpl. auto.
Qed.

(** C10.  When the receive succeeds, [ReceiveMessage] returns the message
    built from the message field of the reply and from its payload, and no
    error, whatever the kind of the reply is. *)
Theorem ReceiveMessage_does_not_validate (w : World Consumer)
  (res : Response.t) (client : Env) :
  client_Receive (env w) = (Ok res, client) ->
  let r := ReceiveMessage w in
  value r = (command_NewMessage (BaseCommand.Message (Response.BaseCommand res))
                                (Response.Payload res), None)
  /\ received (trace r) = [Ok res]
  /\ sent (trace r) = [].
Proof.
  intros Hrecv. unfold ReceiveMessage. run.
  rewrite Hrecv. simpl. auto.
Qed.

(** ** Transport errors *)

(** C7.  Every operation wraps the error of its failed send or receive
    under the message of that command, keeps the cause, and makes no second
    attempt: the ten operations that touch the connection once make that one
    call only, so does [CreateProducer], and [Open] returns the wrapped error
    of whichever of its two steps failed, each step tried once. *)
Theorem transport_errors_are_wrapped :
  (forall topic subscription subType consumerId requestId,
      propagates (Subscribe topic subscription subType consumerId requestId)
                 (fun err => err) "failed to send subscribe command")
  /\ (forall consumerId messagePermits,
         propagates (Flow consumerId messagePermits)
                    (fun err => err) "failed to request flow command")
  /\ (forall consumerId ackType msgIdData validationError,
         propagates (SendAck consumerId ackType msgIdData validationError)
                    (fun err => err) "failed to send ack command")
  /\ (forall payload keyValues,
         propagates (SendSend payload keyValues)
                    (fun err => err) "failed to send 'send' command")
  /\ (forall batchMessage compression,
         propagates (SendBatchSend batchMessage compression)
                    (fun err => err) "failed to send batch 'send' command")
  /\ (forall requestId,
         propagates (CloseProducer requestId)
                    (fun err => err) "failed to send closeProducer command")
  /\ (forall consumerId requestId,
         propagates (CloseConsumer consumerId requestId)
                    (fun err => err) "failed to send closeConsumer command")
  /\ propagates ReceiveProducerSuccess snd
                "failed to receive producerSuccess command"
  /\ propagates ReceiveSendReceipt snd
                "failed to receive sendReceipt command"
  /\ propagates ReceiveMessage snd
                "failed to receive message command"
  /\ (forall requestId,
         propagates (CreateProducer requestId)
                    (fun err => err) "failed to send producer command")
  /\ (forall requestID (w : World Producer) (e : error),
         let r := Open requestID w in
         In e (transport_errors (trace r)) ->
         (value r = Some (errors_Wrap e "failed to send producer command")
          /\ List.length (sent (trace r)) = 1%nat
          /\ received (trace r) = [])
         \/ (value r = Some (errors_Wrap e "failed to receive producerSuccess command")
             /\ List.length (sent (trace r)) = 1%nat
             /\ received (trace r) = [Err e])).
Proof.
  repeat match goal with |- _ /\ _ => split end; intros.
  - unfold Subscribe. intros w e. run.
    answer client_LookupTopic. outcome; [intros []|].
    answer client_Send. outcome; simpl; intros Hin;
      [destruct Hin as [<- | []]; eexists; repeat split | destruct Hin].
  - unfold Flow. one_call client_Send.
  - unfold SendAck. one_call client_Send.
  - unfold SendSend. intros w e. run. answer time_Now.
    answer conn_Send. outcome; simpl; intros Hin;
      [destruct Hin as [<- | []]; eexists; repeat split | destruct Hin].
  - unfold SendBatchSend. intros w e. run. answer time_Now.
    answer conn_Send. outcome; simpl; intros Hin;
      [destruct Hin as [<- | []]; eexists; repeat split | destruct Hin].
  - unfold CloseProducer. one_call conn_Send.
  - unfold CloseConsumer. one_call client_Send.
  - unfold ReceiveProducerSuccess. intros w e. run.
    answer conn_Receive. outcome; simpl.
    + destruct (BaseCommand.Type_ (Response.BaseCommand a)); simpl; intros [].
    + intros Hin. destruct Hin as [<- | []]. eexists; repeat split.
  - unfold ReceiveSendReceipt. intros w e. run.
    answer conn_Receive. outcome; simpl; intros Hin;
      [destruct Hin | destruct Hin as [<- | []]; eexists; repeat split].
  - unfold ReceiveMessage. intros w e. run.
    answer client_Receive. outcome; simpl; intros Hin;
      [destruct Hin | destruct Hin as [<- | []]; eexists; repeat split].
  - unfold CreateProducer. intros w e. run.
    answer SetLookupTopicConnection. outcome; [intros []|].
    answer conn_Send. outcome; simpl; intros Hin;
      [destruct Hin as [<- | []]; eexists; repeat split | destruct Hin].
  - revert H. subst r. unfold Open, CreateProducer, ReceiveProducerSuccess. run.
    answer SetLookupTopicConnection. outcome; [intros []|].
    answer conn_Send. outcome; simpl.
    { intros [<- | []]. left. auto. }
    answer conn_Receive. outcome; simpl.
    + destruct (BaseCommand.Type_ (Response.BaseCommand a)); simpl; intros [].
    + intros [<- | []]. right. auto.
Qed.

(** ** Subscribe *)

(** C2.  [Subscribe] does not read [subType]: two calls that differ in it
    alone run alike, and the command sent carries the mode [Shared]. *)
Theorem Subscribe_ignores_subType (topic subscription subType subType' : string)
  (consumerId requestId : Z) (w : World Consumer) :
  Subscribe topic subscription subType consumerId requestId w
  = Subscribe topic subscription subType' consumerId requestId w
  /\ forall req,
      In req (sent (trace (Subscribe topic subscription subType
                                     consumerId requestId w))) ->
      req = bare (Subscribe_
                    {| CommandSubscribe.Topic := topic;
                       CommandSubscribe.Subscription := subscription;
                       CommandSubscribe.SubType := CommandSubscribe_Shared;
                       CommandSubscribe.ConsumerId := consumerId;
                       CommandSubscribe.RequestId := requestId |}).
Proof.
  split; [reflexivity|].
  unfold Subscribe, bare. run.
  answer client_LookupTopic. outcome; [intros req []|].
  answer client_Send. outcome; simpl; intros req [<- | []]; reflexivity.
Qed.

(** ** Lookup before a command *)

(** X1.  [CreateProducer] looks the producer's topic up first, with the request
    ID it was given and not authoritatively.  When the lookup fails it
    returns that error wrapped and sends nothing; otherwise it sends the
    producer command, alone, once.  It never receives and never changes the
    producer. *)
Theorem CreateProducer_looks_up_then_sends (requestId : Z) (w : World Producer) :
  let r := CreateProducer requestId w in
  let p := this w in
  lookups (trace r) = [(Topic p, requestId, false)]
  /\ received (trace r) = []
  /\ this (world r) = p
  /\ match fst (SetLookupTopicConnection (Topic p) requestId false (env w)) with
     | Some e =>
         value r = Some (errors_Wrap e "failed to set lookup topic connection")
         /\ sent (trace r) = []
     | None =>
         sent (trace r) =
           [bare (Producer_ {| CommandProducer.Topic := Topic p;
                               CommandProducer.ProducerId := ID p;
                               CommandProducer.RequestId := requestId |})]
     end.
Proof.
  unfold CreateProducer, bare. run.
  answer SetLookupTopicConnection. outcome; [auto|].
  answer conn_Send. outcome; auto.
Qed.

(** X2.  [Subscribe] looks the topic up first.  When the lookup fails it returns
    that error wrapped and sends nothing; otherwise it sends one subscribe
    command with the caller's topic, subscription name, consumer ID and
    request ID.  It never receives: no reply to the subscription is read. *)
Theorem Subscribe_looks_up_then_sends (topic subscription subType : string)
  (consumerId requestId : Z) (w : World Consumer) :
  let r := Subscribe topic subscription subType consumerId requestId w in
  lookups (trace r) = [(topic, requestId, false)]
  /\ received (trace r) = []
  /\ match fst (client_LookupTopic topic requestId false (env w)) with
     | Some e =>
         value r = Some (errors_Wrap e "failed to request lookup command")
         /\ sent (trace r) = []
     | None =>
         exists sub,
           sent (trace r) = [bare (Subscribe_ sub)]
           /\ CommandSubscribe.Topic sub = topic
           /\ CommandSubscribe.Subscription sub = subscription
           /\ CommandSubscribe.ConsumerId sub = consumerId
           /\ CommandSubscribe.RequestId sub = requestId
     end.
Proof.
  unfold Subscribe, bare. run.
  answer client_LookupTopic. outcome; [auto|].
  answer client_Send. outcome; repeat split; eexists; repeat split.
Qed.

(** ** Open *)

Lemma Open_run (requestID : Z) (w : World Producer) :
  let r := Open requestID w in
  let c := CreateProducer requestID w in
  sent (trace r) = sent (trace c)
  /\ lookups (trace r) = lookups (trace c)
  /\ match value c with
     | Some e =>
         value r = Some e /\ received (trace r) = []
         /\ failures (trace r) <> [] /\ this (world r) = this w
     | None =>
         match fst (conn_Receive (env (world c))) with
         | Err e =>
             value r = Some (errors_Wrap e "failed to receive producerSuccess command")
             /\ received (trace r) = [Err e]
             /\ failures (trace r) = [e] /\ this (world r) = this w
         | Ok res =>
             received (trace r) = [Ok res] /\ failures (trace r) = []
             /\ (BaseCommand.Type_ (Response.BaseCommand res)
                   = BaseCommand_PRODUCER_SUCCESS ->
                 value r = None
                 /\ this (world r)
                    = set_Name (GetProducerName
                                  (BaseCommand.ProducerSuccess
                                     (Response.BaseCommand res))) (this w))
             /\ (BaseCommand.Type_ (Response.BaseCommand res)
                   <> BaseCommand_PRODUCER_SUCCESS ->
                 value r <> None /\ this (world r) = this w)
         end
     end.
Proof.
  unfold Open, CreateProducer, ReceiveProducerSuccess. run.
  answer SetLookupTopicConnection. outcome.
  { repeat split; discriminate. }
  answer conn_Send. outcome.
  { repeat split; discriminate. }
  answer conn_Receive. outcome.
  - destruct (BaseCommand.Type_ (Response.BaseCommand a)) eqn:Hkind; simpl;
      repeat split; intros; try discriminate; try congruence.
  - auto 10.
Qed.

(** X3.  [Open] runs its steps in order and stops at the first that fails: when
    [CreateProducer] fails, [Open] returns that very error, not wrapped
    again, and receives nothing; when it succeeds, [Open] receives once.
    [Open] sends nothing but the command of [CreateProducer]. *)
Theorem Open_stops_at_first_failure (requestID : Z) (w : World Producer) :
  let r := Open requestID w in
  let c := CreateProducer requestID w in
  sent (trace r) = sent (trace c)
  /\ lookups (trace r) = lookups (trace c)
  /\ match value c with
     | Some e => value r = Some e /\ received (trace r) = []
     | None => List.length (received (trace r)) = 1%nat
     end.
Proof.
  intros r c.
  destruct (Open_run requestID w) as (Hsent & Hlook & Hcases).
  fold r c in Hsent, Hlook, Hcases.
  split; [exact Hsent|]. split; [exact Hlook|].
  destruct (value c).
  - destruct Hcases as (Hv & Hr & _). auto.
  - destruct (fst (conn_Receive (env (world c)))).
    + destruct Hcases as (Hr & _). rewrite Hr. reflexivity.
    + destruct Hcases as (_ & Hr & _). rewrite Hr. reflexivity.
Qed.

(** X4.  [Open] never changes [SequenceID], [Topic] or [ID], and it changes
    [Name] only when it returns [nil]. *)
Theorem Open_changes_only_Name (requestID : Z) (w : World Producer) :
  let r := Open requestID w in
  let p := this w in
  let p' := this (world r) in
  SequenceID p' = SequenceID p
  /\ Topic p' = Topic p
  /\ ID p' = ID p
  /\ (value r <> None -> p' = p).
Proof.
  intros r p p'.
  destruct (Open_run requestID w) as (_ & _ & Hcases).
  fold r in Hcases. unfold p', p.
  destruct (value (CreateProducer requestID w)).
  - destruct Hcases as (_ & _ & _ & Hthis). rewrite Hthis. auto.
  - destruct (fst (conn_Receive (env (world (CreateProducer requestID w))))).
    + destruct Hcases as (_ & _ & Hps & Hother).
      destruct (BaseCommand.Type_ (Response.BaseCommand a)) eqn:Hkind;
        try (destruct Hother as (_ & Hthis); [discriminate|];
             rewrite Hthis; auto).
      destruct Hps as (Hv & Hthis); [reflexivity|].
      rewrite Hthis. simpl. repeat split. intros Hne. contradiction.
    + destruct Hcases as (_ & _ & _ & Hthis). rewrite Hthis. auto.
Qed.

(** X5.  [Open] returns [nil] exactly when the lookup, the send and the receive
    all succeeded and the reply is of kind producer success. *)
Theorem Open_nil_iff (requestID : Z) (w : World Producer) :
  let r := Open requestID w in
  value r = None
  <-> (failures (trace r) = []
       /\ exists res,
           received (trace r) = [Ok res]
           /\ BaseCommand.Type_ (Response.BaseCommand res)
              = BaseCommand_PRODUCER_SUCCESS).
Proof.
  intros r.
  destruct (Open_run requestID w) as (_ & _ & Hcases). fold r in Hcases.
  destruct (value (CreateProducer requestID w)).
  - destruct Hcases as (Hv & _ & Hf & _). rewrite Hv.
    split; [discriminate | intros (Hnil & _); contradiction].
  - destruct (fst (conn_Receive (env (world (CreateProducer requestID w))))).
    + destruct Hcases as (Hr & Hf & Hps & Hother).
      split.
      * intros Hv. split; [exact Hf|]. exists a. split; [exact Hr|].
        destruct (BaseCommand.Type_ (Response.BaseCommand a)) eqn:Hkind;
          try reflexivity;
          destruct Hother as (Hne & _); try discriminate; contradiction.
      * intros (_ & res & Hres & Hkind). rewrite Hr in Hres.
        injection Hres as <-. apply Hps. exact Hkind.
    + destruct Hcases as (Hv & _ & Hf & _). rewrite Hv, Hf.
      split; [discriminate | intros (Hnil & _); discriminate].
Qed.

(** ** What a send carries *)

Lemma perform_sent (c : SendCall) (w : World Producer) :
  exists req,
    sent (trace (perform c w)) = [req]
    /\ received (trace (perform c w)) = []
    /\ send_commands (trace (perform c w))
       = [{| CommandSend.ProducerId := ID (this w);
             CommandSend.SequenceId := uint64 (SequenceID (this w));
             CommandSend.NumMessages :=
               match c with
               | BySendSend _ _ => 1
               | BySendBatchSend b _ => int32 (Z.of_nat (List.length b))
               end |}]
    /\ map MessageMetadata.ProducerName (metas (trace (perform c w)))
       = [Name (this w)]
    /\ map MessageMetadata.SequenceId (metas (trace (perform c w)))
       = [uint64 (SequenceID (this w))]
    /\ map MessageMetadata.PublishTime (metas (trace (perform c w)))
       = [uint64 (Time_Unix (fst (time_Now (env w))))].
Proof.
  destruct c as [payload keyValues | batchMessage compression]; simpl.
  - destruct (SendSend_run payload keyValues w) as (Hsent & Hrecv & _).
    eexists. split; [exact Hsent|]. split; [exact Hrecv|].
    unfold send_commands, metas. rewrite Hsent. simpl. auto.
  - destruct (SendBatchSend_run batchMessage compression w) as (Hsent & Hrecv & _).
    eexists. split; [exact Hsent|]. split; [exact Hrecv|].
    unfold send_commands, metas. rewrite Hsent. simpl. auto.
Qed.

Lemma Open_nil_inv (requestID : Z) (w : World Producer) :
  value (Open requestID w) = None ->
  exists res,
    received (trace (Open requestID w)) = [Ok res]
    /\ this (world (Open requestID w))
       = set_Name (GetProducerName
                     (BaseCommand.ProducerSuccess (Response.BaseCommand res)))
                  (this w).
Proof.
  intros Hnil.
  destruct (Open_run requestID w) as (_ & _ & Hcases).
  destruct (value (CreateProducer requestID w)).
  - destruct Hcases as (Hv & _). rewrite Hv in Hnil. discriminate.
  - destruct (fst (conn_Receive (env (world (CreateProducer requestID w))))).
    + destruct Hcases as (Hr & _ & Hps & Hother).
      exists a. split; [exact Hr|].
      destruct (BaseCommand.Type_ (Response.BaseCommand a)) eqn:Hkind;
        try (destruct Hother as (Hne & _); [discriminate | contradiction]).
      apply Hps. reflexivity.
    + destruct Hcases as (Hv & _). rewrite Hv in Hnil. discriminate.
Qed.

(** X6.  After [Open] returned [nil], a send carries the producer name of the
    reply [Open] received, and draws the sequence ID that the counter held
    before [Open]. *)
Theorem send_after_Open_carries_assigned_name (requestID : Z)
  (w : World Producer) (c : SendCall) :
  value (Open requestID w) = None ->
  exists res,
    received (trace (Open requestID w)) = [Ok res]
    /\ map MessageMetadata.ProducerName
           (metas (trace (perform c (world (Open requestID w)))))
       = [GetProducerName (BaseCommand.ProducerSuccess (Response.BaseCommand res))]
    /\ assigned_ids (trace (perform c (world (Open requestID w))))
       = [uint64 (SequenceID (this w))].
Proof.
  intros Hnil.
  destruct (Open_nil_inv requestID w Hnil) as (res & Hres & Hthis).
  exists res. split; [exact Hres|].
  destruct (perform_sent c (world (Open requestID w)))
    as (req & _ & _ & _ & Hname & _).
  destruct (perform_run c (world (Open requestID w))) as (Hid & _).
  rewrite Hname, Hid, Hthis. auto.
Qed.

(** X7.  A send on a producer that was never opened goes out all the same, with
    the empty producer name and sequence ID 0. *)
Theorem send_before_Open_carries_empty_name (c : SendCall) (producerID : Z)
  (topic : string) (client : Env) :
  let r := perform c (fresh producerID topic client) in
  List.length (sent (trace r)) = 1%nat
  /\ map MessageMetadata.ProducerName (metas (trace r)) = [""]
  /\ map CommandSend.ProducerId (send_commands (trace r)) = [producerID]
  /\ assigned_ids (trace r) = [0].
Proof.
  intros r.
  destruct (perform_sent c (fresh producerID topic client))
    as (req & Hsent & _ & Hcmd & Hname & _).
  destruct (perform_run c (fresh producerID topic client)) as (Hid & _).
  fold r in Hsent, Hcmd, Hname, Hid.
  rewrite Hsent, Hname, Hcmd, Hid. auto.
Qed.

(** X8.  [CloseProducer] does not disable the producer: a send after it goes out
    with the same name and with the sequence ID the counter held. *)
Theorem send_after_CloseProducer_goes_out (requestId : Z) (c : SendCall)
  (w : World Producer) :
  let r := perform c (world (CloseProducer requestId w)) in
  List.length (sent (trace r)) = 1%nat
  /\ map MessageMetadata.ProducerName (metas (trace r)) = [Name (this w)]
  /\ assigned_ids (trace r) = [uint64 (SequenceID (this w))].
Proof.
  intros r.
  destruct (CloseProducer_run requestId w) as (_ & _ & Hthis).
  destruct (perform_sent c (world (CloseProducer requestId w)))
    as (req & Hsent & _ & _ & Hname & _).
  destruct (perform_run c (world (CloseProducer requestId w))) as (Hid & _).
  fold r in Hsent, Hname, Hid.
  rewrite Hsent, Hname, Hid, Hthis. auto.
Qed.

(** X9.  [SendBatchSend] hands the connection one request: a send command and
    metadata that carry the same sequence ID (the counter's value before the
    call), the producer's ID and name, the clock's whole seconds, the
    caller's compression as given, the batch as given and no single
    payload.  It performs no receive. *)
Theorem SendBatchSend_emits_one_unit (batchMessage : list BatchEntry)
  (compression : option CompressionType) (w : World Producer) :
  is_uint64 (SequenceID (this w)) ->
  let r := SendBatchSend batchMessage compression w in
  let p := this w in
  let now := fst (time_Now (env w)) in
  exists send meta,
    sent (trace r) = [{| Request.Message := Send_ send;
                         Request.Meta := Some meta;
                         Request.Payload := "";
                         Request.BatchMessage := batchMessage |}]
    /\ CommandSend.ProducerId send = ID p
    /\ CommandSend.SequenceId send = SequenceID p
    /\ MessageMetadata.ProducerName meta = Name p
    /\ MessageMetadata.SequenceId meta = SequenceID p
    /\ MessageMetadata.PublishTime meta = uint64 (Time_Unix now)
    /\ MessageMetadata.Compression meta = compression
    /\ received (trace r) = [].
Proof.
  intros Hs r p now.
  destruct (SendBatchSend_run batchMessage compression w) as (Hsent & Hrecv & _).
  fold r in Hsent, Hrecv.
  unfold SendBatchSend_request in Hsent. rewrite (uint64_small _ Hs) in Hsent.
  eexists. eexists. split; [exact Hsent|]. simpl. auto 10.
Qed.

Lemma int32_range (z : Z) : - 2 ^ 31 <= int32 z < 2 ^ 31.
Proof.
  unfold int32.
  assert (H : 0 <= (z + 2 ^ 31) mod 2 ^ 32 < 2 ^ 32)
    by (apply Z.mod_pos_bound; reflexivity).
  remember ((z + 2 ^ 31) mod 2 ^ 32) as m. clear Heqm. lia.
Qed.

Lemma int32_congruent (z : Z) : (int32 z - z) mod 2 ^ 32 = 0.
Proof.
  unfold int32.
  replace ((z + 2 ^ 31) mod 2 ^ 32 - 2 ^ 31 - z)
    with ((z + 2 ^ 31) mod 2 ^ 32 - (z + 2 ^ 31)) by lia.
  rewrite Zminus_mod_idemp_l, Z.sub_diag. reflexivity.
Qed.

(** X10.  The message count of a batch is the batch length reduced to an [int32]:
    it is within the [int32] range, it differs from the length by a multiple
    of [2 ^ 32], and it is the length exactly when the length is below
    [2 ^ 31].  The metadata holds the same number. *)
Theorem batch_count_exact_iff (batchMessage : list BatchEntry)
  (compression : option CompressionType) (w : World Producer) :
  let r := SendBatchSend batchMessage compression w in
  let k := Z.of_nat (List.length batchMessage) in
  exists n,
    map CommandSend.NumMessages (send_commands (trace r)) = [n]
    /\ map MessageMetadata.NumMessagesInBatch (metas (trace r)) = [Some n]
    /\ - 2 ^ 31 <= n < 2 ^ 31
    /\ (n - k) mod 2 ^ 32 = 0
    /\ (n = k <-> k < 2 ^ 31).
Proof.
  intros r k.
  destruct (SendBatchSend_run batchMessage compression w) as (Hsent & _).
  fold r in Hsent. unfold SendBatchSend_request in Hsent. fold k in Hsent.
  exists (int32 k). unfold send_commands, metas. rewrite Hsent. simpl.
  split; [reflexivity|]. split; [reflexivity|].
  split; [apply int32_range|]. split; [apply int32_congruent|].
  split.
  - intros Heq. pose proof (int32_range k) as Hr. lia.
  - intros Hk. apply int32_small. unfold k in *. lia.
Qed.

(** X11.  The publish time of a send is the clock's second count converted to
    [uint64]: the count itself from 1970 on, and the count plus [2 ^ 64] for
    a clock that stands before 1970. *)
Theorem publish_time_of_clock (c : SendCall) (w : World Producer) :
  - 2 ^ 63 <= Time_Unix (fst (time_Now (env w))) < 2 ^ 63 ->
  let now := Time_Unix (fst (time_Now (env w))) in
  map MessageMetadata.PublishTime (metas (trace (perform c w)))
  = [if now <? 0 then now + 2 ^ 64 else now].
Proof.
  intros Hnow now.
  destruct (perform_sent c w) as (req & _ & _ & _ & _ & _ & Htime).
  rewrite Htime. fold now in Hnow |- *. f_equal.
  unfold uint64. destruct (Z.ltb_spec now 0) as [Hneg | Hpos].
  - symmetry. apply Z.mod_unique with (q := -1); lia.
  - apply Z.mod_small. lia.
Qed.

(** ** Runs from any counter *)

Lemma send_commands_app (t1 t2 : list Event) :
  send_commands (t1 ++ t2) = send_commands t1 ++ send_commands t2.
Proof. unfold send_commands. rewrite sent_app. apply flat_map_app. Qed.

Lemma metas_app (t1 t2 : list Event) :
  metas (t1 ++ t2) = metas t1 ++ metas t2.
Proof. unfold metas. rewrite sent_app. apply flat_map_app. Qed.

Lemma set_SequenceID_twice (a b : Z) (p : Producer) :
  set_SequenceID a (set_SequenceID b p) = set_SequenceID a p.
Proof. reflexivity. Qed.

Lemma perform_all_cons (c : SendCall) (rest : list SendCall) (w : World Producer) :
  let w1 := world (perform c w) in
  trace (perform_all (c :: rest) w)
  = trace (perform c w) ++ trace (perform_all rest w1)
  /\ world (perform_all (c :: rest) w) = world (perform_all rest w1)
  /\ value (perform_all (c :: rest) w)
     = value (perform c w) :: value (perform_all rest w1).
Proof.
  cbn [perform_all]. cbv zeta.
  rewrite !trace_bind, !world_bind, !value_bind.
  cbn [ret value world trace fst snd]. rewrite app_nil_r. auto.
Qed.

Lemma perform_all_run (cs : list SendCall) (w : World Producer) :
  let r := perform_all cs w in
  let n := Z.of_nat (List.length cs) in
  map CommandSend.SequenceId (send_commands (trace r))
  = map MessageMetadata.SequenceId (metas (trace r))
  /\ List.length (sent (trace r)) = List.length cs
  /\ received (trace r) = []
  /\ (cs <> [] ->
      this (world r) = set_SequenceID (uint64 (SequenceID (this w) + n)) (this w)).
Proof.
  revert w. induction cs as [| c rest IH]; intros w.
  - simpl. repeat split; auto. intros H. contradiction.
  - cbv zeta.
    destruct (perform_all_cons c rest w) as (Htr & Hw & _).
    rewrite Htr, Hw.
    destruct (perform_sent c w) as (req & Hsent & Hrecv & Hcmd & _ & Hmeta & _).
    destruct (perform_run c w) as (_ & Hthis).
    destruct (IH (world (perform c w))) as (IH1 & IH2 & IH3 & IH4).
    split; [|split; [|split]].
    + rewrite send_commands_app, metas_app, !map_app, Hcmd, Hmeta, IH1.
      reflexivity.
    + rewrite sent_app, length_app, Hsent, IH2. reflexivity.
    + rewrite received_app, Hrecv, IH3. reflexivity.
    + intros _. destruct rest as [| c' rest'].
      * cbn [perform_all ret world fst snd]. rewrite Hthis. reflexivity.
      * rewrite IH4 by discriminate. rewrite Hthis.
        rewrite set_SequenceID_twice.
        cbn [set_SequenceID SequenceID]. rewrite uint64_succ_l.
        f_equal. f_equal. cbn [List.length]. lia.
Qed.

(** X12.  In a run of sends from any counter value [s], call number [i] draws
    [(s + i) mod 2 ^ 64], whatever the payloads are and whatever the
    connection answers (a failed send uses its ID up); in each request the
    command and the metadata carry the same ID; the run makes one send per
    call and no receive; and it leaves the counter at [(s + N) mod 2 ^ 64]
    and the name, topic and ID as they were. *)
Theorem run_of_sends_from_any_counter (cs : list SendCall) (w : World Producer) :
  is_uint64 (SequenceID (this w)) ->
  let r := perform_all cs w in
  let s := SequenceID (this w) in
  let n := Z.of_nat (List.length cs) in
  assigned_ids (trace r)
  = map (fun i => uint64 (s + Z.of_nat i)) (seq 0 (List.length cs))
  /\ map CommandSend.SequenceId (send_commands (trace r))
     = map MessageMetadata.SequenceId (metas (trace r))
  /\ List.length (sent (trace r)) = List.length cs
  /\ received (trace r) = []
  /\ this (world r) = set_SequenceID (uint64 (s + n)) (this w).
Proof.
  intros Hs r s n.
  destruct (perform_all_run cs w) as (H1 & H3 & H4 & H6).
  fold r in H1, H3, H4, H6.
  split; [apply perform_all_ids|]. split; [exact H1|].
  split; [exact H3|]. split; [exact H4|].
  destruct cs as [| c rest].
  - clear H1 H3 H4 H6. subst r n s.
    cbn [perform_all ret world fst snd List.length Z.of_nat].
    rewrite Z.add_0_r, (uint64_small _ Hs).
    destruct (this w). reflexivity.
  - apply H6. discriminate.
Qed.

(** ** Results and calls *)

(** X13.  Each of these operations returns [nil] exactly when every call it made
    on the client succeeded: none of them makes an error of its own, and
    none hides a failure. *)
Theorem operations_return_nil_iff_calls_succeed :
  (forall topic subscription subType consumerId requestId,
      nil_iff_calls_succeed
        (Subscribe topic subscription subType consumerId requestId)
        (fun err => err))
  /\ (forall consumerId messagePermits,
         nil_iff_calls_succeed (Flow consumerId messagePermits) (fun err => err))
  /\ (forall consumerId ackType msgIdData validationError,
         nil_iff_calls_succeed
           (SendAck consumerId ackType msgIdData validationError)
           (fun err => err))
  /\ (forall consumerId requestId,
         nil_iff_calls_succeed (CloseConsumer consumerId requestId)
                               (fun err => err))
  /\ nil_iff_calls_succeed ReceiveMessage snd
  /\ (forall requestId,
         nil_iff_calls_succeed (CreateProducer requestId) (fun err => err))
  /\ (forall payload keyValues,
         nil_iff_calls_succeed (SendSend payload keyValues) (fun err => err))
  /\ (forall batchMessage compression,
         nil_iff_calls_succeed (SendBatchSend batchMessage compression)
                               (fun err => err))
  /\ (forall requestId,
         nil_iff_calls_succeed (CloseProducer requestId) (fun err => err))
  /\ nil_iff_calls_succeed ReceiveSendReceipt snd.
Proof.
  repeat match goal with |- _ /\ _ => split end; intros.
  - unfold Subscribe. intros w. run.
    answer client_LookupTopic. outcome; [nil_iff|].
    answer client_Send. outcome; nil_iff.
  - unfold Flow. intros w. run. answer client_Send. outcome; nil_iff.
  - unfold SendAck. intros w. run. answer client_Send. outcome; nil_iff.
  - unfold CloseConsumer. intros w. run. answer client_Send. outcome; nil_iff.
  - unfold ReceiveMessage. intros w. run. answer client_Receive. outcome; nil_iff.
  - unfold CreateProducer. intros w. run.
    answer SetLookupTopicConnection. outcome; [nil_iff|].
    answer conn_Send. outcome; nil_iff.
  - unfold SendSend. intros w. run. answer time_Now.
    answer conn_Send. outcome; nil_iff.
  - unfold SendBatchSend. intros w. run. answer time_Now.
    answer conn_Send. outcome; nil_iff.
  - unfold CloseProducer. intros w. run. answer conn_Send. outcome; nil_iff.
  - unfold ReceiveSendReceipt. intros w. run.
    answer conn_Receive. outcome; nil_iff.
Qed.

(** X14.  Each receiving operation takes exactly the next reply of the connection,
    sends nothing, and never returns a value together with an error; the two
    of the producer leave the producer as it was, also when the reply is
    turned down for its kind. *)
Theorem receive_operations_take_one_reply (wp : World Producer)
  (wc : World Consumer) :
  let r1 := ReceiveProducerSuccess wp in
  let r2 := ReceiveSendReceipt wp in
  let r3 := ReceiveMessage wc in
  (received (trace r1) = [fst (conn_Receive (env wp))]
   /\ sent (trace r1) = []
   /\ world r1 = {| this := this wp; env := snd (conn_Receive (env wp)) |}
   /\ (snd (value r1) <> None -> fst (value r1) = None))
  /\ (received (trace r2) = [fst (conn_Receive (env wp))]
      /\ sent (trace r2) = []
      /\ world r2 = {| this := this wp; env := snd (conn_Receive (env wp)) |}
      /\ (snd (value r2) <> None -> fst (value r2) = None))
  /\ (received (trace r3) = [fst (client_Receive (env wc))]
      /\ sent (trace r3) = []
      /\ (snd (value r3) <> None -> fst (value r3) = None)).
Proof.
  unfold ReceiveProducerSuccess, ReceiveSendReceipt, ReceiveMessage. run.
  destruct (conn_Receive (env wp)) as [[res | e] client]; simpl;
    destruct (client_Receive (env wc)) as [[res' | e'] client']; simpl;
    try destruct (BaseCommand.Type_ (Response.BaseCommand res)); simpl;
    repeat split; auto; intros Hne; contradiction.
Qed.

(** X15.  [Flow] and [SendAck] send one command that holds their arguments as
    given - the permits, the acknowledgment type, the message ID and the
    validation error - and neither looks a topic up nor receives. *)
Theorem Flow_and_SendAck_send_their_arguments (consumerId messagePermits : Z)
  (ackType : CommandAck_AckType) (msgIdData : option MessageIdData)
  (validationError : option CommandAck_ValidationError) (w : World Consumer) :
  let rf := Flow consumerId messagePermits w in
  let ra := SendAck consumerId ackType msgIdData validationError w in
  (sent (trace rf) =
     [bare (Flow_ {| CommandFlow.ConsumerId := consumerId;
                     CommandFlow.MessagePermits := messagePermits |})]
   /\ received (trace rf) = [] /\ lookups (trace rf) = [])
  /\ (sent (trace ra) =
        [bare (Ack_ {| CommandAck.ConsumerId := consumerId;
                       CommandAck.AckType := ackType;
                       CommandAck.MessageId := msgIdData;
                       CommandAck.ValidationError := validationError |})]
      /\ received (trace ra) = [] /\ lookups (trace ra) = []).
Proof.
  unfold Flow, SendAck, bare. run.
  split.
  - answer client_Send. outcome; auto.
  - match goal with
    | |- context [client_Send ?a ?b] =>
        destruct (client_Send a b) as [[e |] client]; simpl; auto
    end.
Qed.

End Properties.

(** ** The properties on the scripted client *)

#[local] Existing Instance plain.
#[local] Existing Instance scripted.

(** C1 on three calls: a send, a batch of two, a send. *)
Lemma sequence_ids_contiguous_witness :
  Z.of_nat (List.length three_calls) <= 2 ^ 64
  /\ assigned_ids (trace (perform_all three_calls (new_producer (quiet []))))
     = [0; 1; 2].
Proof.
  split.
  - simpl. lia.
  - apply (@sequence_ids_contiguous plain scripted three_calls 7 my_topic (quiet [])).
    simpl. lia.
Defined.

(** Past the range of the counter, which no run reaches in practice, the
    IDs start over: in a run of [2 ^ 64 + 1] calls the last call draws 0,
    the ID of the first call. *)
Lemma sequence_ids_wrap_around :
  ~ NoDup (assigned_ids
             (trace (perform_all
                       (repeat (@BySendSend plain "" []) (S (Z.to_nat (2 ^ 64))))
                       (new_producer (quiet []))))).
Proof.
  apply (@sequence_ids_repeat plain scripted).
  apply Z2Nat.id. apply Z.pow_nonneg. lia.
Qed.



(** C5 on the first send of a new producer, the clock at 1500000000 s and
    999999999 ns. *)
Lemma SendSend_emits_one_unit_witness :
  is_uint64 (SequenceID (this (new_producer (quiet []))))
  /\ exists send meta,
      sent (trace (SendSend "hello" [("k", "v")] (new_producer (quiet []))))
        = [{| Request.Message := Send_ send;
              Request.Meta := Some meta;
              Request.Payload := "hello";
              Request.BatchMessage := [] |}]
      /\ CommandSend.SequenceId send = 0
      /\ CommandSend.NumMessages send = 1
      /\ MessageMetadata.SequenceId meta = 0
      /\ MessageMetadata.PublishTime meta = 1500000000
      /\ MessageMetadata.Properties meta = [("k", "v")].
Proof.
  assert (H0 : is_uint64 (SequenceID (this (new_producer (quiet []))))).
  { unfold is_uint64. simpl. lia. }
  split; [exact H0|].
  destruct (@SendSend_emits_one_unit plain scripted "hello" [("k", "v")]
              (new_producer (quiet [])) H0)
    as (send & meta & Hsent & _ & Hseq & Hnum & _ & Hmseq & Htime & Hprops & _).
  exists send, meta. auto 10.
Defined.

(** C8 on a reply of kind MESSAGE: a [nil] receipt and no error. *)
Lemma ReceiveSendReceipt_does_not_validate_witness :
  conn_Receive (env (new_producer (quiet [Ok stray_message])))
    = (Ok stray_message, quiet [])
  /\ value (ReceiveSendReceipt (new_producer (quiet [Ok stray_message])))
     = (None, None).
Proof.
  split; [reflexivity|].
  apply (@ReceiveSendReceipt_does_not_validate plain scripted
           (new_producer (quiet [Ok stray_message])) stray_message (quiet [])).
  reflexivity.
Defined.

(** C10 on a reply of kind SEND_RECEIPT: a message without a command and no
    error. *)
Lemma ReceiveMessage_does_not_validate_witness :
  client_Receive (env (new_consumer (quiet [Ok stray_receipt])))
    = (Ok stray_receipt, quiet [])
  /\ value (ReceiveMessage (new_consumer (quiet [Ok stray_receipt])))
     = (Some (None, ""), None).
Proof.
  split; [reflexivity|].
  apply (@ReceiveMessage_does_not_validate plain scripted
           (new_consumer (quiet [Ok stray_receipt])) stray_receipt (quiet [])).
  reflexivity.
Defined.

(** C7 on a flow command over a connection whose send fails. *)
Lemma transport_errors_are_wrapped_witness :
  In broken_pipe
     (transport_errors (trace (Flow 1 10 (new_consumer (broken broken_pipe)))))
  /\ value (Flow 1 10 (new_consumer (broken broken_pipe)))
     = Some (errors_Wrap broken_pipe "failed to request flow command").
Proof.
  assert (Hin : In broken_pipe
                  (transport_errors
                     (trace (Flow 1 10 (new_consumer (broken broken_pipe)))))).
  { simpl. left. reflexivity. }
  split; [exact Hin|].
  destruct (proj1 (proj2 (@transport_errors_are_wrapped plain scripted)) 1 10
              (new_consumer (broken broken_pipe)) broken_pipe Hin)
    as (err & Hret & Herr & _).
  rewrite Hret, Herr. reflexivity.
Defined.

(** ** Scenarios *)

(** Open with request ID 1; the broker answers producer success with name
    p-1: the producer's name is p-1. *)
Example Open_stores_name :
  let r := Open 1 (new_producer (quiet [Ok producer_success_p1])) in
  value r = None /\ Name (this (world r)) = "p-1".
Proof. split; reflexivity. Qed.

(** Open's receive step yields a send receipt: the error names that kind and
    no name is stored. *)
Example Open_rejects_send_receipt :
  let r := Open 1 (new_producer (quiet [Ok stray_receipt])) in
  value r = Some (errors_Errorf "unknown command type: %v" BaseCommand_SEND_RECEIPT)
  /\ Name (this (world r)) = "".
Proof. split; reflexivity. Qed.

(** Two sends on one producer draw 0 and then 1. *)
Example two_sends_draw_0_and_1 :
  assigned_ids
    (trace (perform_all [@BySendSend plain "a" []; @BySendSend plain "b" []]
                        (new_producer (quiet []))))
  = [0; 1].
Proof. reflexivity. Qed.

(** A subscription asked as Exclusive goes out as Shared. *)
Example Subscribe_Exclusive_sends_Shared :
  sent (trace (Subscribe my_topic "my-sub" "Exclusive" 1 1 (new_consumer (quiet []))))
  = [bare (Subscribe_
             {| CommandSubscribe.Topic := my_topic;
                CommandSubscribe.Subscription := "my-sub";
                CommandSubscribe.SubType := CommandSubscribe_Shared;
                CommandSubscribe.ConsumerId := 1;
                CommandSubscribe.RequestId := 1 |})].
Proof. reflexivity. Qed.

(** ** Further properties on the scripted client *)

(** Open answered with the name p-1, then a send. *)
Lemma send_after_Open_carries_assigned_name_witness :
  value (Open 1 (new_producer (quiet [Ok producer_success_p1]))) = None
  /\ map MessageMetadata.ProducerName
         (metas (trace (perform one_send
                                (world (Open 1 (new_producer
                                                  (quiet [Ok producer_success_p1])))))))
     = ["p-1"].
Proof.
  split; [reflexivity|].
  destruct (@send_after_Open_carries_assigned_name plain scripted 1
              (new_producer (quiet [Ok producer_success_p1]))
              one_send eq_refl)
    as (res & Hres & Hname & _).
  assert (Heq : res = producer_success_p1).
  { vm_compute in Hres. injection Hres as <-. reflexivity. }
  rewrite Heq in Hname. exact Hname.
Defined.

(** A batch of five payloads with compression 0 on a new producer. *)
Lemma SendBatchSend_emits_one_unit_witness :
  is_uint64 (SequenceID (this (new_producer (quiet []))))
  /\ exists send meta,
      sent (trace (@SendBatchSend plain scripted five_payloads (Some 0%nat)
                                  (new_producer (quiet []))))
        = [{| Request.Message := Send_ send;
              Request.Meta := Some meta;
              Request.Payload := "";
              Request.BatchMessage := five_payloads |}]
      /\ CommandSend.SequenceId send = 0
      /\ MessageMetadata.SequenceId meta = 0
      /\ MessageMetadata.PublishTime meta = 1500000000
      /\ MessageMetadata.Compression meta = Some 0%nat.
Proof.
  assert (H0 : is_uint64 (SequenceID (this (new_producer (quiet []))))).
  { unfold is_uint64. simpl. lia. }
  split; [exact H0|].
  destruct (@SendBatchSend_emits_one_unit plain scripted five_payloads
              (Some 0%nat) (new_producer (quiet [])) H0)
    as (send & meta & Hsent & _ & Hseq & _ & Hmseq & Htime & Hcomp & _).
  exists send, meta. auto 10.
Defined.

(** A clock one second before 1970: the publish time is [2 ^ 64 - 1]. *)
Lemma publish_time_of_clock_witness :
  - 2 ^ 63 <= Time_Unix (fst (time_Now (env (new_producer before_1970)))) < 2 ^ 63
  /\ map MessageMetadata.PublishTime
         (metas (trace (perform one_send (new_producer before_1970))))
     = [18446744073709551615].
Proof.
  assert (H0 : - 2 ^ 63
               <= Time_Unix (fst (time_Now (env (new_producer before_1970))))
               < 2 ^ 63).
  { simpl. lia. }
  split; [exact H0|].
  exact (@publish_time_of_clock plain scripted one_send
           (new_producer before_1970) H0).
Defined.

(** Three calls from counter [2 ^ 64 - 2]: the IDs are [2 ^ 64 - 2],
    [2 ^ 64 - 1] and 0, and the counter ends at 1. *)
Lemma run_of_sends_from_any_counter_witness :
  is_uint64 (SequenceID (this (late_producer (quiet []))))
  /\ assigned_ids (trace (perform_all three_calls (late_producer (quiet []))))
     = [18446744073709551614; 18446744073709551615; 0]
  /\ SequenceID (this (world (perform_all three_calls (late_producer (quiet [])))))
     = 1.
Proof.
  assert (H0 : is_uint64 (SequenceID (this (late_producer (quiet []))))).
  { unfold is_uint64. simpl. lia. }
  split; [exact H0|].
  destruct (@run_of_sends_from_any_counter plain scripted three_calls
              (late_producer (quiet [])) H0)
    as (Hids & _ & _ & _ & Hthis).
  split.
  - exact Hids.
  - rewrite Hthis. reflexivity.
Defined.
